(** * Worker Canvas Bootstrap: a shallow embedding of [worker.js]

    The repository holds two configurations of one worker script:
    - [src/host/worker.js]: the handshake that also patches the received
      canvas' [getContext] (the "override variant");
    - [src/unnamed/part_000]: the same handshake without the patch (the
      "baseline variant").

    The script's state is the worker global scope: the global
    [RUST_OFFSCREEN_CANVAS], the [onmessage] slot, the object heap, the
    console and the calls made into the externally built module.  All of it is
    threaded explicitly through the embedded functions.

    Scope of the model:
    - objects live in a heap and are referred to by location, so that a
      write through one reference is seen through every other;
    - objects are ordinary extensible objects (no accessors, proxies, frozen
      or sealed objects), and values are the primitives exchanged with the
      page and the module, object references and the functions named below
      (no symbols);
    - the externally built module and the platform's own [getContext] are not
      part of the repository: calls into the former are recorded in order,
      the latter is a parameter of the development;
    - an exception leaves the state as it is at the point of the throw. *)

From stdpp Require Import gmap strings list fin_maps.

Local Open Scope string_scope.
Local Open Scope list_scope.

(** ** JavaScript values *)

Abbreviation loc := positive.

(** Functions are values; the only functions this script creates or touches
    are the platform's [OffscreenCanvas.prototype.getContext], the result of
    [.bind(...)] and the arrow function assigned to [canvas.getContext]. *)
Inductive value : Type :=
  | VUndefined
  | VNull
  | VBool (b : bool)
  | VNum (n : Z)
  | VStr (s : string)
  | VRef (l : loc)
  | VFun (f : func)
with func : Type :=
  | NativeGetContext
  | Bound (target : func) (this : value)
  | GetContextOverride (ORIGINAL_GET_CONTEXT : func).

(** The prototype an object was created with. [instanceof OffscreenCanvas]
    inspects nothing else. *)
Inductive class : Type :=
  | Object
  | OffscreenCanvas.

Record obj : Type := MkObj {
  cls : class;
  props : gmap string value
}.

(** [typeof v] *)
Definition typeof (v : value) : string :=
  match v with
  | VUndefined => "undefined"
  | VNull => "object"
  | VBool _ => "boolean"
  | VNum _ => "number"
  | VStr _ => "string"
  | VRef _ => "object"
  | VFun _ => "function"
  end.

(** [v === null] *)
Definition is_null (v : value) : bool :=
  match v with
  | VNull => true
  | _ => false
  end.

(** [v === "literal"]: strict equality against a string literal never
    coerces, so only a primitive string with the same characters matches. *)
Definition strict_eq_str (v : value) (s : string) : bool :=
  match v with
  | VStr s' => String.eqb s' s
  | _ => false
  end.

(** Members found on the prototype chain. Of the inherited members only
    [getContext] is ever read by the script. *)
Definition proto_lookup (c : class) (k : string) : value :=
  match c with
  | OffscreenCanvas =>
      if String.eqb k "getContext" then VFun NativeGetContext else VUndefined
  | Object => VUndefined
  end.

(** [v.k]: own property first, then the prototype. Member access on [null] or
    [undefined] throws in JavaScript; every access in the script is guarded
    against that by the preceding conjuncts, so those cases read as
    [undefined] here. *)
Definition get (h : gmap loc obj) (v : value) (k : string) : value :=
  match v with
  | VRef l =>
      match h !! l with
      | Some o =>
          match props o !! k with
          | Some x => x
          | None => proto_lookup (cls o) k
          end
      | None => VUndefined
      end
  | _ => VUndefined
  end.

(** [v.k = x] on an ordinary extensible object (sloppy mode: the write is
    dropped silently on a primitive). *)
Definition put (h : gmap loc obj) (v : value) (k : string) (x : value)
  : gmap loc obj :=
  match v with
  | VRef l => alter (fun o => MkObj (cls o) (<[k := x]> (props o))) l h
  | _ => h
  end.

(** [v instanceof OffscreenCanvas] *)
Definition instanceof_OffscreenCanvas (h : gmap loc obj) (v : value) : bool :=
  match v with
  | VRef l =>
      match h !! l with
      | Some (MkObj OffscreenCanvas _) => true
      | _ => false
      end
  | _ => false
  end.

(** [{}] : a fresh ordinary object. *)
Definition alloc_empty (h : gmap loc obj) : loc * gmap loc obj :=
  let l := fresh (dom h) in (l, <[l := MkObj Object ∅]> h).

(** ** Arrays (the rest parameter [args]) *)

(** [a[i]] : reading past the end yields [undefined]. *)
Definition array_get (a : list value) (i : nat) : value :=
  match a !! i with
  | Some v => v
  | None => VUndefined
  end.

(** [a[i] = v] : writing past the end extends the array, the holes in
    between reading as [undefined]. *)
Definition array_set (a : list value) (i : nat) (v : value) : list value :=
  if decide (i < length a)
  then <[i := v]> a
  else a ++ replicate (i - length a) VUndefined ++ [v].

(** ** Console and outbound calls *)

Inductive level : Type := Log | Debug | Warn | Error.

(** The text of a report: a literal, or a template literal with one
    interpolated value, kept as written: the prefix, then the value in its
    string form. *)
Inductive message : Type :=
  | Lit (s : string)
  | Template (prefix : string) (v : value).

(** Further arguments handed to the console: a value, or the [args] array
    with the elements it has at the time of the report. *)
Inductive log_arg : Type :=
  | AVal (v : value)
  | AArr (vs : list value).

Record report : Type := MkReport {
  lvl : level;
  msg : message;
  extra : list log_arg
}.

(** Calls that leave the script for the externally built module. *)
Inductive external_call : Type :=
  | importScripts (url : string)
  | wasm_bindgen (options : list (string * value)).

(** How a call completes. *)
Inductive exn : Type :=
  | TypeError (what : string)
  | Thrown (v : value).

Inductive completion : Type :=
  | Return (v : value)
  | Throw (e : exn).

(** ** The worker global scope *)

(** The two scripts of the repository. *)
Inductive variant : Type :=
  | OverrideVariant
  | BaselineVariant.

Record worker : Type := MkWorker {
  RUST_OFFSCREEN_CANVAS : value;
  onmessage : option variant;
  heap : gmap loc obj;
  console : list report;
  calls : list external_call
}.

Record MessageEvent : Type := MkEvent { data : value }.

Definition set_RUST_OFFSCREEN_CANVAS (v : value) (w : worker) : worker :=
  MkWorker v (onmessage w) (heap w) (console w) (calls w).

Definition set_onmessage (o : option variant) (w : worker) : worker :=
  MkWorker (RUST_OFFSCREEN_CANVAS w) o (heap w) (console w) (calls w).

Definition set_heap (h : gmap loc obj) (w : worker) : worker :=
  MkWorker (RUST_OFFSCREEN_CANVAS w) (onmessage w) h (console w) (calls w).

Definition emit (r : report) (w : worker) : worker :=
  MkWorker (RUST_OFFSCREEN_CANVAS w) (onmessage w) (heap w)
           (console w ++ [r]) (calls w).

Definition call_out (c : external_call) (w : worker) : worker :=
  MkWorker (RUST_OFFSCREEN_CANVAS w) (onmessage w) (heap w) (console w)
           (calls w ++ [c]).

(** ** The reports of the script *)

Definition report_loaded : report :=
  MkReport Debug
    (Lit "Web Worker script loaded. Waiting for OffscreenCanvas message...") [].

Definition report_already_initialized : report :=
  MkReport Warn
    (Lit "Worker received a message, but OffscreenCanvas is already initialized.")
    [].

Definition report_received (canvas : value) : report :=
  MkReport Debug
    (Lit "Worker successfully received OffscreenCanvas from 'CANVAS' command.")
    [AVal canvas].

Definition report_listener_removed : report :=
  MkReport Debug (Lit "Message listener removed. Canvas is ready for use.") [].

Definition report_invalid_payload (d : value) : report :=
  MkReport Error
    (Lit "Worker received an invalid message payload. Expected { type: 'CANVAS', canvas: OffscreenCanvas }")
    [AVal d].

Definition report_get_context (args : list value) : report :=
  MkReport Log (Lit "get_context") [AArr args].

Definition report_modified (attrs : value) : report :=
  MkReport Debug
    (Lit "Modified webgl2 context attributes to include desynchronized: true")
    [AVal attrs].

Definition report_other_context (ty : value) : report :=
  MkReport Debug (Template "getContext called with context type: " ty) [].

(** ** [function init()] *)

Definition entry_script : string := "./app/rose-sample-rs.js".
Definition binary_artifact : string := "./app/rose-sample-rs_bg.wasm".

Definition bootstrap_calls : list external_call :=
  [ importScripts entry_script;
    wasm_bindgen [("module_or_path", VStr binary_artifact)] ].

Definition init (w : worker) : worker :=
  call_out (wasm_bindgen [("module_or_path", VStr binary_artifact)])
    (call_out (importScripts entry_script) w).

(** ** [self.onmessage = function (event) { ... }] *)

(** The condition of the second [if]. *)
Definition shape_check (h : gmap loc obj) (d : value) : bool :=
  String.eqb (typeof d) "object"
  && negb (is_null d)
  && strict_eq_str (get h d "type") "CANVAS"
  && instanceof_OffscreenCanvas h (get h d "canvas").

(** [f.bind(this)] : a [TypeError] when [f] is not callable. *)
Definition js_bind (f : value) (this : value) : option func :=
  match f with
  | VFun g => Some (Bound g this)
  | _ => None
  end.

(** The statements both scripts run once the surface is stored: the two
    [console.debug] reports around [self.onmessage = null], then [init()]. *)
Definition finish_handshake (w : worker) : worker * completion :=
  let w := emit (report_received (RUST_OFFSCREEN_CANVAS w)) w in
  let w := set_onmessage None w in
  let w := emit report_listener_removed w in
  (init w, Return VUndefined).

(** [src/host/worker.js], lines 7-51. *)
Definition onmessage_worker_js (w : worker) (event : MessageEvent)
  : worker * completion :=
  let d := data event in
  if negb (is_null (RUST_OFFSCREEN_CANVAS w)) then
    (emit report_already_initialized w, Return VUndefined)
  else if shape_check (heap w) d then
    let w := set_RUST_OFFSCREEN_CANVAS (get (heap w) d "canvas") w in
    let canvas := RUST_OFFSCREEN_CANVAS w in
    match js_bind (get (heap w) canvas "getContext") canvas with
    | None => (w, Throw (TypeError "bind"))
    | Some ORIGINAL_GET_CONTEXT =>
        let w :=
          set_heap
            (put (heap w) canvas "getContext"
                 (VFun (GetContextOverride ORIGINAL_GET_CONTEXT))) w in
        finish_handshake w
    end
  else
    (emit (report_invalid_payload d) w, Return VUndefined).

(** [src/unnamed/part_000], lines 7-31. *)
Definition onmessage_part_000 (w : worker) (event : MessageEvent)
  : worker * completion :=
  let d := data event in
  if negb (is_null (RUST_OFFSCREEN_CANVAS w)) then
    (emit report_already_initialized w, Return VUndefined)
  else if shape_check (heap w) d then
    let w := set_RUST_OFFSCREEN_CANVAS (get (heap w) d "canvas") w in
    finish_handshake w
  else
    (emit (report_invalid_payload d) w, Return VUndefined).

(** The function a script stores in [self.onmessage]. *)
Definition onmessage_handler (v : variant)
  : worker -> MessageEvent -> worker * completion :=
  match v with
  | OverrideVariant => onmessage_worker_js
  | BaselineVariant => onmessage_part_000
  end.

(** ** The host's side of the channel *)

(** State of the global scope once the script has run to its end; [h] holds
    the objects the page will send. *)
Definition load (v : variant) (h : gmap loc obj) : worker :=
  MkWorker VNull (Some v) h [report_loaded] [].

(** Delivery of one message event: the handler in the [onmessage] slot, if
    any, runs to completion; what it did before an uncaught exception stays
    done. *)
Definition dispatch (w : worker) (event : MessageEvent) : worker :=
  match onmessage w with
  | Some v => fst (onmessage_handler v w event)
  | None => w
  end.

Definition deliver_all (w : worker) (events : list MessageEvent) : worker :=
  foldl dispatch w events.

(** ** Calling a function value *)

Section Calls.

(** The platform's context-acquisition operation: given the receiver and the
    arguments it may read and extend the heap, and it returns a context or
    throws. *)
Variable native_getContext :
  value -> list value -> gmap loc obj -> gmap loc obj * completion.

(** The statements of the arrow function before its [return]. *)
Definition override_prepare (args : list value) (w : worker)
  : list value * worker :=
  let w := emit (report_get_context args) w in
  if strict_eq_str (array_get args 0) "webgl2" then
    let '(args, w) :=
      if (length args <? 2)%nat
         || negb (String.eqb (typeof (array_get args 1)) "object")
         || is_null (array_get args 1)
      then
        let '(l, h) := alloc_empty (heap w) in
        (array_set args 1 (VRef l), set_heap h w)
      else (args, w) in
    let w :=
      set_heap (put (heap w) (array_get args 1) "desynchronized" (VBool true))
               w in
    (args, emit (report_modified (array_get args 1)) w)
  else
    (args, emit (report_other_context (array_get args 0)) w).

Fixpoint call (f : func) (this : value) (args : list value) (w : worker)
  : worker * completion :=
  match f with
  | NativeGetContext =>
      let '(h, r) := native_getContext this args (heap w) in
      (set_heap h w, r)
  | Bound target bound_this => call target bound_this args w
  | GetContextOverride ORIGINAL_GET_CONTEXT =>
      let '(args, w) := override_prepare args w in
      call ORIGINAL_GET_CONTEXT VUndefined args w
  end.

(** [receiver.k(...args)] *)
Definition call_method (receiver : value) (k : string) (args : list value)
    (w : worker) : worker * completion :=
  match get (heap w) receiver k with
  | VFun f => call f receiver args w
  | _ => (w, Throw (TypeError k))
  end.

End Calls.

(** ** The handshake state machine and the message shape, as specified *)

Inductive phase : Type :=
  | AwaitingSurface
  | SurfaceBound.

(** The guard of the first [if]: the surface state is set when it is not
    [null]. *)
Definition phase_of (w : worker) : phase :=
  if is_null (RUST_OFFSCREEN_CANVAS w) then AwaitingSurface else SurfaceBound.

(** The required shape: a non-absent object, whose [type] is the literal
    ["CANVAS"] and whose [canvas] is an instance of [OffscreenCanvas]. *)
Definition required_shape (h : gmap loc obj) (d : value) : Prop :=
  (∃ l, d = VRef l)
  ∧ get h d "type" = VStr "CANVAS"
  ∧ ∃ c o, get h d "canvas" = VRef c ∧ h !! c = Some o
           ∧ cls o = OffscreenCanvas.

(** An [OffscreenCanvas] as the platform hands it over: an instance whose
    [getContext] member is a function (a transferred canvas arrives without
    own properties, so the member is the prototype's). *)
Definition platform_canvas (h : gmap loc obj) (c : loc) : Prop :=
  (∃ o, h !! c = Some o ∧ cls o = OffscreenCanvas)
  ∧ ∃ f, get h (VRef c) "getContext" = VFun f.

(** A well-formed Initialization Message carrying the canvas [c]. *)
Definition initialization_message (h : gmap loc obj) (d : value) (c : loc)
  : Prop :=
  (∃ l, d = VRef l)
  ∧ get h d "type" = VStr "CANVAS"
  ∧ get h d "canvas" = VRef c
  ∧ platform_canvas h c.

(** Every canvas of the heap is a platform canvas. *)
Definition platform_heap (h : gmap loc obj) : Prop :=
  ∀ c o, h !! c = Some o → cls o = OffscreenCanvas →
         ∃ f, get h (VRef c) "getContext" = VFun f.

(** What a caller of [getContext] supplied as attributes: an object
    reference in the second position, or nothing usable. *)
Definition supplied_attributes (args : list value) : option loc :=
  match array_get args 1 with
  | VRef l => Some l
  | _ => None
  end.

(** ** Auxiliary notions used in the statements *)

(** The global scope after the success path, up to the heap. *)
Definition bound_worker (w : worker) (canvas : value) (h : gmap loc obj)
  : worker :=
  MkWorker canvas None h
    (console w ++ [report_received canvas; report_listener_removed])
    (calls w ++ bootstrap_calls).

(** The first message of a sequence that passes the shape check. *)
Definition first_valid (h : gmap loc obj) (events : list MessageEvent)
  : option MessageEvent :=
  List.find (fun ev => shape_check h (data ev)) events.

(** Direct, repeated invocation of a script's handler function. *)
Definition invoke_all (v : variant) (w : worker) (events : list MessageEvent)
  : worker :=
  foldl (fun w ev => (onmessage_handler v w ev).1) w events.

(** What the page and the external module can tell about the handshake:
    the bound surface, whether a handler is registered, the reports and the
    calls made. *)
Definition handshake_view (w : worker)
  : value * bool * list report * list external_call :=
  (RUST_OFFSCREEN_CANVAS w,
   match onmessage w with Some _ => true | None => false end,
   console w, calls w).

(** The heap of the override variant relative to the heap [h] the baseline
    works on: equal to it until a surface is bound, and from then on equal
    to it but for the [getContext] property of the bound canvas. *)
Definition override_installed (h : gmap loc obj) (w : worker) : Prop :=
  (RUST_OFFSCREEN_CANVAS w = VNull ∧ heap w = h)
  ∨ ∃ c f,
      RUST_OFFSCREEN_CANVAS w = VRef c
      ∧ get h (VRef c) "getContext" = VFun f
      ∧ heap w
        = put h (VRef c) "getContext"
            (VFun (GetContextOverride (Bound f (VRef c)))).

(** What the console gains from a sequence of messages delivered to a freshly
    loaded script: one error report per message until one passes the shape
    check, then the two reports of the success path, then nothing. *)
Fixpoint channel_reports (h : gmap loc obj) (events : list MessageEvent)
  : list report :=
  match events with
  | [] => []
  | ev :: events =>
      if shape_check h (data ev)
      then [report_received (get h (data ev) "canvas");
            report_listener_removed]
      else report_invalid_payload (data ev) :: channel_reports h events
  end.

(** ** A decision procedure for [platform_heap] *)

Definition is_function (v : value) : bool :=
  match v with
  | VFun _ => true
  | _ => false
  end.

Definition platform_heapb (h : gmap loc obj) : bool :=
  forallb
    (fun '(c, o) =>
       match cls o with
       | OffscreenCanvas => is_function (get h (VRef c) "getContext")
       | Object => true
       end)
    (map_to_list h).

(** ** Sample data: a page's messages and a caller's attributes *)

(** [1]: [{ type: "CANVAS", canvas: <2> }]; [2], [6]: transferred canvases;
    [3]: [{ type: "PING" }]; [4]: [{ antialias: false, desynchronized: false }];
    [5]: [{ type: "CANVAS", canvas: <6> }]. *)
Definition sample_heap : gmap loc obj :=
  <[1%positive := MkObj Object
      (<["type" := VStr "CANVAS"]> (<["canvas" := VRef 2]> ∅))]>
  (<[2%positive := MkObj OffscreenCanvas ∅]>
  (<[3%positive := MkObj Object (<["type" := VStr "PING"]> ∅)]>
  (<[4%positive := MkObj Object
      (<["antialias" := VBool false]> (<["desynchronized" := VBool false]> ∅))]>
  (<[5%positive := MkObj Object
      (<["type" := VStr "CANVAS"]> (<["canvas" := VRef 6]> ∅))]>
  (<[6%positive := MkObj OffscreenCanvas ∅]> ∅))))).

(** A platform operation that hands back [null] and leaves the heap alone. *)
Definition sample_native (this : value) (args : list value)
    (h : gmap loc obj) : gmap loc obj * completion :=
  (h, Return VNull).

(** * Properties *)

(** ** Values and the heap *)

Lemma strict_eq_str_true v s : strict_eq_str v s = true ↔ v = VStr s.
Proof.
  destruct v; simpl; try (split; [discriminate | intros [=]]).
  rewrite String.eqb_eq. split; [congruence | by intros [= ->]].
Qed.

Lemma instanceof_OffscreenCanvas_true h v :
  instanceof_OffscreenCanvas h v = true
  ↔ ∃ c o, v = VRef c ∧ h !! c = Some o ∧ cls o = OffscreenCanvas.
Proof.
  split.
  - destruct v as [| | | | |l|]; simpl; try discriminate.
    destruct (h !! l) as [[[] p]|] eqn:E; try discriminate.
    intros _. by exists l, (MkObj OffscreenCanvas p).
  - intros (c & [k p] & -> & E & Hc). simpl in *. by rewrite E, Hc.
Qed.

Lemma shape_check_true h d : shape_check h d = true ↔ required_shape h d.
Proof.
  unfold shape_check, required_shape.
  rewrite !andb_true_iff, strict_eq_str_true, instanceof_OffscreenCanvas_true.
  split.
  - intros [[[Ht Hn] Hty] Hc]. split_and!; [|done..].
    destruct d; simpl in *; try discriminate. by eexists.
  - intros ([l ->] & Hty & Hc). by split_and!.
Qed.

Lemma shape_check_false h d : shape_check h d = false ↔ ¬ required_shape h d.
Proof. rewrite <- shape_check_true. by destruct (shape_check h d). Qed.

Lemma initialization_message_shape h d c :
  initialization_message h d c → shape_check h d = true.
Proof.
  intros (Hl & Hty & Hc & (o & Ho & Hk) & _). apply shape_check_true.
  split_and!; [done..|]. by exists c, o.
Qed.

Lemma platform_heap_message h d :
  platform_heap h → shape_check h d = true →
  ∃ c, initialization_message h d c.
Proof.
  intros Hh (Hl & Hty & c & o & Hc & Ho & Hk)%shape_check_true.
  exists c. unfold initialization_message, platform_canvas.
  split_and!; [done..|by exists o|by eapply Hh].
Qed.

Lemma get_put_eq h l o k x :
  h !! l = Some o → get (put h (VRef l) k x) (VRef l) k = x.
Proof.
  intros E. unfold get, put. rewrite lookup_alter_eq, E. simpl.
  by rewrite lookup_insert_eq.
Qed.

Lemma get_put_ne h v l k k' x :
  k ≠ k' → get (put h v k x) (VRef l) k' = get h (VRef l) k'.
Proof.
  intros Hk. unfold get, put. destruct v as [| | | | |l'|]; try done.
  destruct (decide (l' = l)) as [->|Hl].
  - rewrite lookup_alter_eq. destruct (h !! l) as [o|]; simpl; [|done].
    by rewrite lookup_insert_ne.
  - by rewrite lookup_alter_ne.
Qed.

Lemma lookup_put_ne h l l' k x :
  l ≠ l' → put h (VRef l) k x !! l' = h !! l'.
Proof. intros Hl. unfold put. by rewrite lookup_alter_ne. Qed.

Lemma lookup_put_eq h l k x :
  put h (VRef l) k x !! l
  = (fun o => MkObj (cls o) (<[k := x]> (props o))) <$> h !! l.
Proof. unfold put. by rewrite lookup_alter_eq. Qed.

Lemma dom_put h v k x : dom (put h v k x) = dom h.
Proof.
  destruct v; try done. unfold put. apply set_eq. intros i.
  rewrite !elem_of_dom. destruct (decide (l = i)) as [->|Hl].
  - rewrite lookup_alter_eq. by rewrite fmap_is_Some.
  - by rewrite lookup_alter_ne.
Qed.

Lemma alloc_empty_fresh h : h !! (alloc_empty h).1 = None.
Proof.
  unfold alloc_empty. simpl. apply not_elem_of_dom. apply is_fresh.
Qed.

(** ** One run of the handler *)

Lemma phase_awaiting w :
  phase_of w = AwaitingSurface ↔ RUST_OFFSCREEN_CANVAS w = VNull.
Proof.
  unfold phase_of. destruct (RUST_OFFSCREEN_CANVAS w); simpl;
    split; congruence.
Qed.

Lemma phase_bound w :
  phase_of w = SurfaceBound ↔ RUST_OFFSCREEN_CANVAS w ≠ VNull.
Proof.
  unfold phase_of. destruct (RUST_OFFSCREEN_CANVAS w); simpl;
    split; congruence.
Qed.

(** Lines 12-15 of both scripts. *)
Lemma handler_when_bound v w ev :
  RUST_OFFSCREEN_CANVAS w ≠ VNull →
  onmessage_handler v w ev
  = (emit report_already_initialized w, Return VUndefined).
Proof.
  intros Hb.
  destruct v; simpl; unfold onmessage_worker_js, onmessage_part_000;
    destruct (RUST_OFFSCREEN_CANVAS w); simpl; congruence.
Qed.

(** The [else] branch of both scripts. *)
Lemma handler_when_malformed v w ev :
  RUST_OFFSCREEN_CANVAS w = VNull →
  shape_check (heap w) (data ev) = false →
  onmessage_handler v w ev
  = (emit (report_invalid_payload (data ev)) w, Return VUndefined).
Proof.
  intros Hn Hs.
  destruct v; simpl; unfold onmessage_worker_js, onmessage_part_000;
    by rewrite Hn, Hs.
Qed.

Lemma finish_handshake_eq w :
  finish_handshake w
  = (bound_worker w (RUST_OFFSCREEN_CANVAS w) (heap w), Return VUndefined).
Proof.
  unfold finish_handshake, bound_worker, init, call_out, emit, set_onmessage,
    bootstrap_calls. simpl. by rewrite <- !app_assoc.
Qed.

(** The success path of [part_000]. *)
Lemma baseline_when_valid w ev :
  RUST_OFFSCREEN_CANVAS w = VNull →
  shape_check (heap w) (data ev) = true →
  onmessage_part_000 w ev
  = (bound_worker w (get (heap w) (data ev) "canvas") (heap w),
     Return VUndefined).
Proof.
  intros Hn Hs. unfold onmessage_part_000. rewrite Hn, Hs. simpl.
  by rewrite finish_handshake_eq.
Qed.

(** The success path of [worker.js], when the canvas' [getContext] is the
    function [f]. *)
Lemma override_when_valid w ev c f :
  RUST_OFFSCREEN_CANVAS w = VNull →
  shape_check (heap w) (data ev) = true →
  get (heap w) (data ev) "canvas" = VRef c →
  get (heap w) (VRef c) "getContext" = VFun f →
  onmessage_worker_js w ev
  = (bound_worker w (VRef c)
       (put (heap w) (VRef c) "getContext"
            (VFun (GetContextOverride (Bound f (VRef c))))),
     Return VUndefined).
Proof.
  intros Hn Hs Hc Hf. unfold onmessage_worker_js. rewrite Hn, Hs. simpl.
  rewrite Hc, Hf. simpl. by rewrite finish_handshake_eq.
Qed.

(** Whatever happens on the success path of [worker.js], the surface is
    stored first. *)
Lemma handler_stores_surface v w ev :
  RUST_OFFSCREEN_CANVAS w = VNull →
  shape_check (heap w) (data ev) = true →
  RUST_OFFSCREEN_CANVAS (onmessage_handler v w ev).1
  = get (heap w) (data ev) "canvas".
Proof.
  intros Hn Hs. destruct v; simpl; [|by rewrite baseline_when_valid].
  unfold onmessage_worker_js. rewrite Hn, Hs. simpl.
  destruct (js_bind _ _); [|done]. by rewrite finish_handshake_eq.
Qed.


Lemma handler_when_valid v w ev c :
  RUST_OFFSCREEN_CANVAS w = VNull →
  initialization_message (heap w) (data ev) c →
  ∃ h, onmessage_handler v w ev = (bound_worker w (VRef c) h, Return VUndefined).
Proof.
  intros Hn Hm. pose proof (initialization_message_shape _ _ _ Hm) as Hs.
  destruct Hm as (_ & _ & Hc & _ & f & Hf). destruct v; simpl.
  - eexists. by eapply override_when_valid.
  - eexists. by rewrite baseline_when_valid, Hc.
Qed.

(** ** Delivery through the channel *)

Lemma dispatch_deregistered w ev : onmessage w = None → dispatch w ev = w.
Proof. intros H. unfold dispatch. by rewrite H. Qed.

Lemma deliver_all_deregistered w evs :
  onmessage w = None → deliver_all w evs = w.
Proof.
  intros H. induction evs as [|ev evs IH]; [done|].
  unfold deliver_all in *. simpl. by rewrite dispatch_deregistered.
Qed.

Lemma dispatch_when_malformed v w ev :
  RUST_OFFSCREEN_CANVAS w = VNull → onmessage w = Some v →
  shape_check (heap w) (data ev) = false →
  dispatch w ev = emit (report_invalid_payload (data ev)) w.
Proof.
  intros Hn Hr Hs. unfold dispatch. rewrite Hr.
  by rewrite handler_when_malformed.
Qed.

Lemma deliver_all_app w evs1 evs2 :
  deliver_all w (evs1 ++ evs2) = deliver_all (deliver_all w evs1) evs2.
Proof. apply foldl_app. Qed.

Lemma dispatch_keeps_surface w ev :
  RUST_OFFSCREEN_CANVAS w ≠ VNull →
  RUST_OFFSCREEN_CANVAS (dispatch w ev) = RUST_OFFSCREEN_CANVAS w.
Proof.
  intros Hb. unfold dispatch. destruct (onmessage w) as [v|]; [|done].
  by rewrite handler_when_bound.
Qed.

Lemma deliver_all_keeps_surface evs : ∀ w,
  RUST_OFFSCREEN_CANVAS w ≠ VNull →
  RUST_OFFSCREEN_CANVAS (deliver_all w evs) = RUST_OFFSCREEN_CANVAS w.
Proof.
  induction evs as [|ev evs IH]; intros w Hb; [done|].
  unfold deliver_all in *. simpl.
  rewrite IH; rewrite dispatch_keeps_surface; done.
Qed.

Lemma dispatch_keeps_calls w ev :
  RUST_OFFSCREEN_CANVAS w ≠ VNull → calls (dispatch w ev) = calls w.
Proof.
  intros Hb. unfold dispatch. destruct (onmessage w) as [v|]; [|done].
  by rewrite handler_when_bound.
Qed.

Lemma deliver_all_keeps_calls evs : ∀ w,
  RUST_OFFSCREEN_CANVAS w ≠ VNull → calls (deliver_all w evs) = calls w.
Proof.
  induction evs as [|ev evs IH]; intros w Hb; [done|].
  unfold deliver_all in *. simpl.
  rewrite IH; [by apply dispatch_keeps_calls|].
  by rewrite dispatch_keeps_surface.
Qed.

Lemma shape_check_canvas_not_null h d :
  shape_check h d = true → get h d "canvas" ≠ VNull.
Proof.
  intros (_ & _ & c & o & -> & _)%shape_check_true. done.
Qed.

Lemma deliver_all_surface evs : ∀ v w,
  RUST_OFFSCREEN_CANVAS w = VNull → onmessage w = Some v →
  RUST_OFFSCREEN_CANVAS (deliver_all w evs)
  = match first_valid (heap w) evs with
    | Some ev => get (heap w) (data ev) "canvas"
    | None => VNull
    end.
Proof.
  induction evs as [|ev evs IH]; intros v w Hn Hr; [done|].
  unfold deliver_all in *. simpl.
  destruct (shape_check (heap w) (data ev)) eqn:Hs.
  - assert (RUST_OFFSCREEN_CANVAS (dispatch w ev)
            = get (heap w) (data ev) "canvas") as Hd.
    { unfold dispatch. rewrite Hr. by apply handler_stores_surface. }
    rewrite (deliver_all_keeps_surface evs); [done|].
    rewrite Hd. by apply shape_check_canvas_not_null.
  - rewrite (dispatch_when_malformed v) by done. by rewrite (IH v).
Qed.

Lemma platform_heapb_sound h : platform_heapb h = true → platform_heap h.
Proof.
  unfold platform_heapb. rewrite forallb_forall. intros Hall c o Ho Hc.
  assert (In (c, o) (map_to_list h)) as Hin.
  { by apply list_elem_of_In, elem_of_map_to_list. }
  apply Hall in Hin. cbv beta iota in Hin. rewrite Hc in Hin.
  destruct (get h (VRef c) "getContext"); try discriminate. by eexists.
Qed.

(** ** Sample facts *)

Lemma sample_message :
  initialization_message sample_heap (VRef 1) 2%positive.
Proof.
  unfold initialization_message, platform_canvas.
  split_and!; [by eexists|reflexivity|reflexivity| |by eexists].
  eexists. split; reflexivity.
Qed.

Lemma sample_heap_platform : platform_heap sample_heap.
Proof. apply platform_heapb_sound. reflexivity. Qed.

(** ** The handshake *)

(** C1: a well-formed Initialization Message received while the surface
    state is absent leaves the surface state equal to the supplied canvas and
    the handler deregistered; no message delivered afterwards, whatever its
    shape, changes the state. *)
Theorem handshake_binds_and_deregisters v w ev c :
  RUST_OFFSCREEN_CANVAS w = VNull →
  initialization_message (heap w) (data ev) c →
  RUST_OFFSCREEN_CANVAS (onmessage_handler v w ev).1 = VRef c
  ∧ onmessage (onmessage_handler v w ev).1 = None
  ∧ (onmessage_handler v w ev).2 = Return VUndefined
  ∧ ∀ later,
      deliver_all (onmessage_handler v w ev).1 later
      = (onmessage_handler v w ev).1.
Proof.
  intros Hn Hm. destruct (handler_when_valid v w ev c Hn Hm) as [h ->].
  simpl. split_and!; [done..|].
  intros later. by apply deliver_all_deregistered.
Qed.

Lemma handshake_binds_and_deregisters_witness :
  let w := load OverrideVariant sample_heap in
  let ev := MkEvent (VRef 1) in
  RUST_OFFSCREEN_CANVAS (onmessage_handler OverrideVariant w ev).1 = VRef 2
  ∧ onmessage (onmessage_handler OverrideVariant w ev).1 = None
  ∧ (onmessage_handler OverrideVariant w ev).2 = Return VUndefined
  ∧ ∀ later,
      deliver_all (onmessage_handler OverrideVariant w ev).1 later
      = (onmessage_handler OverrideVariant w ev).1.
Proof.
  apply (handshake_binds_and_deregisters OverrideVariant
           (load OverrideVariant sample_heap) (MkEvent (VRef 1)) 2%positive).
  - reflexivity.
  - exact sample_message.
Defined.

(** C2: in [AwaitingSurface] the handler moves to [SurfaceBound], storing the
    message's canvas, exactly when the message is a non-absent object whose
    [type] is ["CANVAS"] and whose [canvas] is an [OffscreenCanvas] instance;
    any other value is rejected with the error report and nothing else. *)
Theorem binds_iff_required_shape v w ev :
  phase_of w = AwaitingSurface →
  (phase_of (onmessage_handler v w ev).1 = SurfaceBound
   ↔ required_shape (heap w) (data ev))
  ∧ (required_shape (heap w) (data ev) →
     RUST_OFFSCREEN_CANVAS (onmessage_handler v w ev).1
     = get (heap w) (data ev) "canvas")
  ∧ (¬ required_shape (heap w) (data ev) →
     onmessage_handler v w ev
     = (emit (report_invalid_payload (data ev)) w, Return VUndefined)).
Proof.
  intros Hn%phase_awaiting.
  destruct (shape_check (heap w) (data ev)) eqn:Hs.
  - pose proof (proj1 (shape_check_true _ _) Hs) as Hshape.
    pose proof (handler_stores_surface v w ev Hn Hs) as Hst.
    split_and!; [|done|done].
    split; [done|]. intros _. apply phase_bound. rewrite Hst.
    by apply shape_check_canvas_not_null.
  - pose proof (proj1 (shape_check_false _ _) Hs) as Hshape.
    rewrite (handler_when_malformed v w ev Hn Hs).
    split_and!; [|done|done].
    split; [|done]. simpl. intros Hb%phase_bound. by simpl in Hb.
Qed.

Lemma binds_iff_required_shape_witness :
  let w := load BaselineVariant sample_heap in
  (phase_of (onmessage_handler BaselineVariant w (MkEvent (VRef 3))).1
   = SurfaceBound
   ↔ required_shape sample_heap (VRef 3))
  ∧ (phase_of (onmessage_handler BaselineVariant w (MkEvent (VRef 1))).1
     = SurfaceBound
     ↔ required_shape sample_heap (VRef 1)).
Proof.
  split.
  - apply (binds_iff_required_shape BaselineVariant
             (load BaselineVariant sample_heap) (MkEvent (VRef 3))).
    reflexivity.
  - apply (binds_iff_required_shape BaselineVariant
             (load BaselineVariant sample_heap) (MkEvent (VRef 1))).
    reflexivity.
Defined.

(** C3, as stated, fails on the page's second message: two well-formed
    messages are delivered in sequence, the first binds its canvas, and the
    second, arriving in [SurfaceBound], adds no warning-level report (nor any
    other), the handler having been deregistered by the first. *)
Lemma late_delivery_not_reported :
  let w1 := dispatch (load OverrideVariant sample_heap) (MkEvent (VRef 1)) in
  phase_of w1 = SurfaceBound
  ∧ required_shape sample_heap (VRef 5)
  ∧ ¬ ∃ r, lvl r = Warn
           ∧ console (dispatch w1 (MkEvent (VRef 5))) = console w1 ++ [r].
Proof.
  split_and!.
  - reflexivity.
  - apply shape_check_true. reflexivity.
  - intros (r & _ & H). apply (f_equal length) in H.
    vm_compute in H. discriminate H.
Qed.

(** C3, amended: when the handler runs while the surface state is already
    set, it reports at warning level and returns: the surface is still the
    one bound before, the heap and the [onmessage] slot are as they were, and
    no call to the external module is added. Once the handshake has
    deregistered the handler, a delivered message does not reach it: the
    whole state, console included, stays as it is. *)
Theorem message_after_binding_discarded v w ev :
  phase_of w = SurfaceBound →
  (onmessage_handler v w ev
   = (emit report_already_initialized w, Return VUndefined)
   ∧ lvl report_already_initialized = Warn
   ∧ RUST_OFFSCREEN_CANVAS (onmessage_handler v w ev).1
     = RUST_OFFSCREEN_CANVAS w
   ∧ heap (onmessage_handler v w ev).1 = heap w
   ∧ onmessage (onmessage_handler v w ev).1 = onmessage w
   ∧ calls (onmessage_handler v w ev).1 = calls w)
  ∧ (onmessage w = None → dispatch w ev = w).
Proof.
  intros Hb%phase_bound. split.
  - by rewrite (handler_when_bound v w ev Hb).
  - apply dispatch_deregistered.
Qed.

Lemma invoke_all_when_bound v evs : ∀ w,
  RUST_OFFSCREEN_CANVAS w ≠ VNull →
  invoke_all v w evs
  = MkWorker (RUST_OFFSCREEN_CANVAS w) (onmessage w) (heap w)
      (console w ++ replicate (length evs) report_already_initialized)
      (calls w).
Proof.
  induction evs as [|ev evs IH]; intros w Hb.
  - simpl. rewrite app_nil_r. by destruct w.
  - unfold invoke_all in *. simpl. rewrite handler_when_bound by done.
    simpl. rewrite IH by done. simpl. by rewrite <- app_assoc.
Qed.

(** Two messages of the required shape handed to the handler function in
    sequence: the first one's canvas is bound and stays bound, the second
    only adds the warning. *)
Corollary second_message_keeps_first_surface v w ev1 ev2 :
  RUST_OFFSCREEN_CANVAS w = VNull →
  required_shape (heap w) (data ev1) →
  let w1 := (onmessage_handler v w ev1).1 in
  let w2 := (onmessage_handler v w1 ev2).1 in
  RUST_OFFSCREEN_CANVAS w2 = get (heap w) (data ev1) "canvas"
  ∧ w2 = emit report_already_initialized w1.
Proof.
  intros Hn Hs%shape_check_true. simpl.
  pose proof (handler_stores_surface v w ev1 Hn Hs) as Hst.
  assert (RUST_OFFSCREEN_CANVAS (onmessage_handler v w ev1).1 ≠ VNull) as Hb.
  { rewrite Hst. by apply shape_check_canvas_not_null. }
  by rewrite (handler_when_bound v _ ev2 Hb).
Qed.

Lemma message_after_binding_discarded_witness :
  let w := dispatch (load BaselineVariant sample_heap) (MkEvent (VRef 1)) in
  phase_of w = SurfaceBound
  ∧ onmessage_handler BaselineVariant w (MkEvent (VRef 5))
    = (emit report_already_initialized w, Return VUndefined)
  ∧ RUST_OFFSCREEN_CANVAS
      (onmessage_handler BaselineVariant w (MkEvent (VRef 5))).1
    = VRef 2
  ∧ dispatch w (MkEvent (VRef 5)) = w.
Proof.
  split; [reflexivity|].
  destruct (message_after_binding_discarded BaselineVariant
              (dispatch (load BaselineVariant sample_heap) (MkEvent (VRef 1)))
              (MkEvent (VRef 5))) as ((H1 & _ & H2 & _) & H3).
  - reflexivity.
  - split_and!; [exact H1| |apply H3; reflexivity].
    rewrite H2. reflexivity.
Defined.

(** C4: a message that fails the shape check in [AwaitingSurface] changes
    nothing but the console: the surface state stays absent, the handler
    stays registered, one error-level report carries the received payload,
    and a later well-formed message still binds its canvas. *)
Theorem malformed_message_rejected v w ev :
  RUST_OFFSCREEN_CANVAS w = VNull →
  onmessage w = Some v →
  ¬ required_shape (heap w) (data ev) →
  dispatch w ev = emit (report_invalid_payload (data ev)) w
  ∧ lvl (report_invalid_payload (data ev)) = Error
  ∧ extra (report_invalid_payload (data ev)) = [AVal (data ev)]
  ∧ RUST_OFFSCREEN_CANVAS (dispatch w ev) = VNull
  ∧ onmessage (dispatch w ev) = Some v
  ∧ heap (dispatch w ev) = heap w
  ∧ calls (dispatch w ev) = calls w
  ∧ ∀ ev' c,
      initialization_message (heap w) (data ev') c →
      RUST_OFFSCREEN_CANVAS (dispatch (dispatch w ev) ev') = VRef c
      ∧ onmessage (dispatch (dispatch w ev) ev') = None.
Proof.
  intros Hn Hr Hs%shape_check_false.
  rewrite (dispatch_when_malformed v) by done.
  simpl. split_and!; [done..|].
  intros ev' c Hm. unfold dispatch. simpl. rewrite Hr.
  destruct (handler_when_valid v (emit (report_invalid_payload (data ev)) w)
              ev' c Hn Hm) as [h ->].
  done.
Qed.

Lemma malformed_message_rejected_witness :
  let w := load OverrideVariant sample_heap in
  ¬ required_shape sample_heap (VRef 3)
  ∧ dispatch w (MkEvent (VRef 3))
    = emit (report_invalid_payload (VRef 3)) w
  ∧ RUST_OFFSCREEN_CANVAS
      (dispatch (dispatch w (MkEvent (VRef 3))) (MkEvent (VRef 1)))
    = VRef 2.
Proof.
  assert (¬ required_shape sample_heap (VRef 3)) as Hbad.
  { apply shape_check_false. reflexivity. }
  split; [exact Hbad|].
  destruct (malformed_message_rejected OverrideVariant
              (load OverrideVariant sample_heap) (MkEvent (VRef 3)))
    as (H1 & _ & _ & _ & _ & _ & _ & H2).
  - reflexivity.
  - reflexivity.
  - exact Hbad.
  - split; [exact H1|].
    exact (proj1 (H2 (MkEvent (VRef 1)) 2%positive sample_message)).
Defined.

(** C5: over every sequence of delivered messages the surface state starts
    absent; it holds the canvas of the first message that passes the shape
    check, if there is one, and nothing otherwise; and once it holds a
    canvas [c] it holds [c] after every further message. *)
Theorem surface_set_at_most_once v h evs later c :
  RUST_OFFSCREEN_CANVAS (deliver_all (load v h) evs) = VRef c →
  RUST_OFFSCREEN_CANVAS (load v h) = VNull
  ∧ (∃ ev, first_valid h evs = Some ev ∧ get h (data ev) "canvas" = VRef c)
  ∧ RUST_OFFSCREEN_CANVAS (deliver_all (load v h) (evs ++ later)) = VRef c.
Proof.
  intros Hc. split; [done|]. split.
  - rewrite (deliver_all_surface evs v (load v h)) in Hc by done. simpl in Hc.
    destruct (first_valid h evs) as [ev|]; [|done]. by exists ev.
  - rewrite deliver_all_app, deliver_all_keeps_surface; [done|].
    by rewrite Hc.
Qed.

Lemma surface_set_at_most_once_witness :
  RUST_OFFSCREEN_CANVAS
    (deliver_all (load OverrideVariant sample_heap)
       ([MkEvent (VRef 3); MkEvent (VRef 1)] ++ [MkEvent (VRef 5)]))
  = VRef 2.
Proof.
  apply (surface_set_at_most_once OverrideVariant sample_heap
           [MkEvent (VRef 3); MkEvent (VRef 1)] [MkEvent (VRef 5)] 2%positive).
  reflexivity.
Defined.

(** The surface state is absent exactly as long as no message has passed the
    shape check. *)
Lemma surface_absent_until_valid v h evs :
  first_valid h evs = None →
  RUST_OFFSCREEN_CANVAS (deliver_all (load v h) evs) = VNull.
Proof.
  intros Hf. rewrite (deliver_all_surface evs v (load v h)) by done.
  simpl. by rewrite Hf.
Qed.

(** ** The bootstrap step *)

Lemma dispatch_when_valid v w ev c :
  RUST_OFFSCREEN_CANVAS w = VNull → onmessage w = Some v →
  initialization_message (heap w) (data ev) c →
  ∃ h, dispatch w ev = bound_worker w (VRef c) h.
Proof.
  intros Hn Hr Hm. unfold dispatch. rewrite Hr.
  destruct (handler_when_valid v w ev c Hn Hm) as [h ->]. by exists h.
Qed.

Lemma deliver_all_calls evs : ∀ v w,
  RUST_OFFSCREEN_CANVAS w = VNull → onmessage w = Some v →
  platform_heap (heap w) →
  calls (deliver_all w evs)
  = calls w
    ++ (if existsb (fun ev => shape_check (heap w) (data ev)) evs
        then bootstrap_calls else []).
Proof.
  induction evs as [|ev evs IH]; intros v w Hn Hr Hh.
  - simpl. by rewrite app_nil_r.
  - unfold deliver_all in *. simpl.
    destruct (shape_check (heap w) (data ev)) eqn:Hs; simpl.
    + destruct (platform_heap_message _ _ Hh Hs) as [c Hm].
      destruct (dispatch_when_valid v w ev c Hn Hr Hm) as [h ->].
      by rewrite (deliver_all_deregistered _ evs).
    + rewrite (dispatch_when_malformed v) by done. by rewrite (IH v).
Qed.

(** C8: the success path of the handler runs the bootstrap step once: it
    appends exactly the load of the entry script [./app/rose-sample-rs.js]
    followed by the start of the module with the binary artifact
    [./app/rose-sample-rs_bg.wasm]; and over any sequence of delivered
    messages these two calls are made once if some message passed the shape
    check and not at all otherwise. *)
Theorem bootstrap_invoked_once v h evs :
  platform_heap h →
  (∀ w ev c,
     RUST_OFFSCREEN_CANVAS w = VNull →
     initialization_message (heap w) (data ev) c →
     calls (onmessage_handler v w ev).1
     = calls w
       ++ [ importScripts "./app/rose-sample-rs.js";
            wasm_bindgen
              [("module_or_path", VStr "./app/rose-sample-rs_bg.wasm")] ])
  ∧ calls (deliver_all (load v h) evs)
    = if existsb (fun ev => shape_check h (data ev)) evs
      then [ importScripts "./app/rose-sample-rs.js";
             wasm_bindgen
               [("module_or_path", VStr "./app/rose-sample-rs_bg.wasm")] ]
      else [].
Proof.
  intros Hh. split.
  - intros w ev c Hn Hm.
    by destruct (handler_when_valid v w ev c Hn Hm) as [h' ->].
  - by rewrite (deliver_all_calls evs v (load v h)).
Qed.

Lemma bootstrap_invoked_once_witness :
  calls (deliver_all (load OverrideVariant sample_heap)
           [MkEvent (VRef 3); MkEvent (VRef 1); MkEvent (VRef 5)])
  = [ importScripts "./app/rose-sample-rs.js";
      wasm_bindgen [("module_or_path", VStr "./app/rose-sample-rs_bg.wasm")] ].
Proof.
  apply (bootstrap_invoked_once OverrideVariant sample_heap
           [MkEvent (VRef 3); MkEvent (VRef 1); MkEvent (VRef 5)]).
  apply platform_heapb_sound. reflexivity.
Defined.

(** ** The two variants *)

Lemma variants_step evs : ∀ con cl h,
  platform_heap h →
  let wo := deliver_all (MkWorker VNull (Some OverrideVariant) h con cl) evs in
  let wb := deliver_all (MkWorker VNull (Some BaselineVariant) h con cl) evs in
  handshake_view wo = handshake_view wb
  ∧ heap wb = h
  ∧ override_installed h wo.
Proof.
  induction evs as [|ev evs IH]; intros con cl h Hh.
  - simpl. split_and!; [done..|]. by left.
  - set (o := MkWorker VNull (Some OverrideVariant) h con cl).
    set (b := MkWorker VNull (Some BaselineVariant) h con cl).
    unfold deliver_all in *. cbn [foldl].
    destruct (shape_check h (data ev)) eqn:Hs.
    + destruct (platform_heap_message _ _ Hh Hs)
        as (c & _ & _ & Hc & _ & f & Hf).
      assert (dispatch o ev
              = bound_worker o (VRef c)
                  (put h (VRef c) "getContext"
                     (VFun (GetContextOverride (Bound f (VRef c)))))) as ->.
      { unfold dispatch. simpl.
        by rewrite (override_when_valid o ev c f). }
      assert (dispatch b ev = bound_worker b (VRef c) h) as ->.
      { unfold dispatch. simpl.
        rewrite (baseline_when_valid b ev) by done. simpl. by rewrite Hc. }
      rewrite !(deliver_all_deregistered _ evs) by done.
      split_and!; [done..|]. right. by exists c, f.
    + rewrite (dispatch_when_malformed OverrideVariant o ev) by done.
      rewrite (dispatch_when_malformed BaselineVariant b ev) by done.
      by apply IH.
Qed.

(** C9: on the same messages the two variants run the same handshake: the
    same surface is bound, the handler is registered or deregistered alike,
    the same reports are made and the same calls to the external module are
    issued. The baseline leaves the heap as it was; the override variant
    differs from it only by the [getContext] override installed on the
    bound canvas. *)
Theorem variants_agree_on_handshake h evs :
  platform_heap h →
  handshake_view (deliver_all (load OverrideVariant h) evs)
  = handshake_view (deliver_all (load BaselineVariant h) evs)
  ∧ heap (deliver_all (load BaselineVariant h) evs) = h
  ∧ override_installed h (deliver_all (load OverrideVariant h) evs).
Proof. intros Hh. by apply (variants_step evs [report_loaded] [] h). Qed.

Lemma variants_agree_on_handshake_witness :
  handshake_view
    (deliver_all (load OverrideVariant sample_heap)
       [MkEvent (VRef 3); MkEvent (VRef 1); MkEvent (VRef 5)])
  = handshake_view
      (deliver_all (load BaselineVariant sample_heap)
         [MkEvent (VRef 3); MkEvent (VRef 1); MkEvent (VRef 5)]).
Proof.
  apply (variants_agree_on_handshake sample_heap
           [MkEvent (VRef 3); MkEvent (VRef 1); MkEvent (VRef 5)]).
  apply platform_heapb_sound. reflexivity.
Defined.

(** ** Arrays *)

Lemma array_get_set_eq a i v : array_get (array_set a i v) i = v.
Proof.
  unfold array_get, array_set. case_decide as Hi.
  - by rewrite list_lookup_insert_eq.
  - rewrite lookup_app_r by lia. rewrite lookup_app_r; rewrite length_replicate;
      [|lia]. by replace (i - length a - (i - length a)) with 0 by lia.
Qed.

Lemma array_set_same a i v : a !! i = Some v → array_set a i v = a.
Proof.
  intros Hi. unfold array_set. rewrite decide_True by by eapply lookup_lt_Some.
  by apply list_insert_id.
Qed.

Lemma array_set_1_head a v :
  a ≠ [] → array_get (array_set a 1 v) 0 = array_get a 0.
Proof. by destruct a as [|x [|y a]]. Qed.

Lemma array_set_1_rest a v : drop 2 (array_set a 1 v) = drop 2 a.
Proof. by destruct a as [|x [|y a]]. Qed.

Lemma supplied_attributes_Some args l :
  supplied_attributes args = Some l ↔ array_get args 1 = VRef l.
Proof.
  unfold supplied_attributes.
  destruct (array_get args 1); split; congruence.
Qed.

(** The condition of the inner [if] holds exactly when the caller did not
    supply an object. *)
Lemma attributes_missing_iff args :
  (length args <? 2)%nat
  || negb (String.eqb (typeof (array_get args 1)) "object")
  || is_null (array_get args 1) = true
  ↔ supplied_attributes args = None.
Proof.
  unfold supplied_attributes, array_get.
  destruct args as [|x [|y args]]; simpl; [done..|].
  destruct y; simpl; split; congruence.
Qed.

(** ** The context-acquisition override *)

Section Override.

#[local] Arguments get : simpl never.
#[local] Arguments put : simpl never.

Variable native_getContext :
  value -> list value -> gmap loc obj -> gmap loc obj * completion.

Abbreviation call := (call native_getContext).

Lemma override_prepare_other args w :
  array_get args 0 ≠ VStr "webgl2" →
  override_prepare args w
  = (args,
     emit (report_other_context (array_get args 0))
       (emit (report_get_context args) w)).
Proof.
  intros Hty. unfold override_prepare.
  destruct (strict_eq_str (array_get args 0) "webgl2") eqn:E; [|done].
  by apply strict_eq_str_true in E.
Qed.

Lemma override_prepare_supplied args w l :
  array_get args 0 = VStr "webgl2" →
  array_get args 1 = VRef l →
  override_prepare args w
  = (args,
     emit (report_modified (VRef l))
       (set_heap (put (heap w) (VRef l) "desynchronized" (VBool true))
          (emit (report_get_context args) w))).
Proof.
  intros Hty Hl. unfold override_prepare. rewrite Hty. simpl.
  assert (supplied_attributes args = Some l) as Hs
    by by apply supplied_attributes_Some.
  destruct (_ || _ || _) eqn:E.
  - apply attributes_missing_iff in E. congruence.
  - by rewrite Hl.
Qed.

Lemma override_prepare_missing args w :
  array_get args 0 = VStr "webgl2" →
  supplied_attributes args = None →
  let l := fresh (dom (heap w)) in
  override_prepare args w
  = (array_set args 1 (VRef l),
     emit (report_modified (VRef l))
       (set_heap
          (put (<[l := MkObj Object ∅]> (heap w)) (VRef l)
             "desynchronized" (VBool true))
          (emit (report_get_context args) w))).
Proof.
  intros Hty Hs. unfold override_prepare. rewrite Hty. simpl.
  apply attributes_missing_iff in Hs. rewrite Hs. simpl.
  by rewrite array_get_set_eq.
Qed.

Lemma call_override orig this args w :
  call (GetContextOverride orig) this args w
  = call orig VUndefined (override_prepare args w).1
      (override_prepare args w).2.
Proof. simpl. by destruct (override_prepare args w). Qed.

(** After the handshake of [worker.js] on a platform canvas, the canvas'
    [getContext] is the override around the bound original. *)
Lemma handshake_installs_override w ev c f :
  RUST_OFFSCREEN_CANVAS w = VNull →
  initialization_message (heap w) (data ev) c →
  get (heap w) (VRef c) "getContext" = VFun f →
  get (heap (onmessage_worker_js w ev).1) (VRef c) "getContext"
  = VFun (GetContextOverride (Bound f (VRef c))).
Proof.
  intros Hn Hm Hf.
  pose proof (initialization_message_shape _ _ _ Hm) as Hs.
  destruct Hm as (_ & _ & Hc & (o & Ho & _) & _).
  rewrite (override_when_valid w ev c f) by done. simpl.
  by eapply get_put_eq.
Qed.

(** From then on [canvas.getContext(...args)] runs the override, which ends
    in the original operation with the canvas as receiver. *)
Lemma installed_getContext_calls_original w ev c f args :
  RUST_OFFSCREEN_CANVAS w = VNull →
  initialization_message (heap w) (data ev) c →
  get (heap w) (VRef c) "getContext" = VFun f →
  let w1 := (onmessage_worker_js w ev).1 in
  call_method native_getContext (VRef c) "getContext" args w1
  = call f (VRef c) (override_prepare args w1).1 (override_prepare args w1).2.
Proof.
  intros Hn Hm Hf w1. unfold call_method.
  unfold w1. rewrite (handshake_installs_override w ev c f) by done.
  by rewrite call_override.
Qed.

(** In [part_000] the same call goes to the original operation directly. *)
Lemma baseline_getContext_calls_original w ev c f args :
  RUST_OFFSCREEN_CANVAS w = VNull →
  initialization_message (heap w) (data ev) c →
  get (heap w) (VRef c) "getContext" = VFun f →
  let w1 := (onmessage_part_000 w ev).1 in
  call_method native_getContext (VRef c) "getContext" args w1
  = call f (VRef c) args w1.
Proof.
  intros Hn Hm Hf w1. unfold call_method, w1.
  rewrite baseline_when_valid
    by eauto using initialization_message_shape.
  simpl. by rewrite Hf.
Qed.

(** C6: a request for a ["webgl2"] context reaches the original operation
    with an attributes object in second position: the caller's own object
    when one was supplied, a newly constructed one otherwise. Its
    [desynchronized] field is [true] whatever it was before, every other
    field of it is as the caller left it, and the remaining arguments are
    unchanged. *)
Theorem webgl2_request_forces_desynchronized orig this args w :
  array_get args 0 = VStr "webgl2" →
  (∀ l, supplied_attributes args = Some l → is_Some (heap w !! l)) →
  ∃ attrs w',
    call (GetContextOverride orig) this args w
    = call orig VUndefined (array_set args 1 (VRef attrs)) w'
    ∧ match supplied_attributes args with
      | Some l => attrs = l ∧ array_set args 1 (VRef attrs) = args
      | None =>
          heap w !! attrs = None
          ∧ heap w' !! attrs
            = Some (MkObj Object {["desynchronized" := VBool true]})
      end
    ∧ array_get (array_set args 1 (VRef attrs)) 0 = VStr "webgl2"
    ∧ array_get (array_set args 1 (VRef attrs)) 1 = VRef attrs
    ∧ drop 2 (array_set args 1 (VRef attrs)) = drop 2 args
    ∧ get (heap w') (VRef attrs) "desynchronized" = VBool true
    ∧ ∀ k, k ≠ "desynchronized" →
           get (heap w') (VRef attrs) k = get (heap w) (VRef attrs) k.
Proof.
  intros Hty Hlive. rewrite call_override.
  assert (args ≠ []) as Hne by (by intros ->).
  destruct (supplied_attributes args) as [l|] eqn:Hs.
  - pose proof (proj1 (supplied_attributes_Some _ _) Hs) as Hl.
    destruct (Hlive l eq_refl) as [o Ho].
    assert (array_set args 1 (VRef l) = args) as Hsame.
    { apply array_set_same. unfold array_get in Hl.
      by destruct (args !! 1) as [x|]; simplify_eq. }
    rewrite (override_prepare_supplied args w l) by done. simpl.
    eexists l, _. rewrite Hsame. split; [reflexivity|]. simpl.
    split_and!; [done..| |].
    + by eapply get_put_eq.
    + intros k Hk. by rewrite get_put_ne.
  - rewrite (override_prepare_missing args w) by done. simpl.
    set (l := fresh (dom (heap w))).
    assert (heap w !! l = None) as Hfresh by apply alloc_empty_fresh.
    eexists l, _. split; [reflexivity|]. simpl.
    split_and!.
    + done.
    + rewrite lookup_put_eq, lookup_insert_eq. simpl.
      by rewrite insert_empty.
    + by rewrite array_set_1_head.
    + apply array_get_set_eq.
    + apply array_set_1_rest.
    + eapply get_put_eq. apply lookup_insert_eq.
    + intros k Hk. rewrite get_put_ne by done. unfold get.
      by rewrite lookup_insert_eq, Hfresh.
Qed.

(** C7: a request for any context type other than ["webgl2"] reaches the
    original operation with the caller's arguments and the caller's heap
    as they are; and for every request the override ends by calling the
    original operation, whose outcome is the override's outcome. *)
Theorem other_context_types_pass_through orig this args w :
  (array_get args 0 ≠ VStr "webgl2" →
   call (GetContextOverride orig) this args w
   = call orig VUndefined args
       (emit (report_other_context (array_get args 0))
          (emit (report_get_context args) w)))
  ∧ (∃ args' w',
       call (GetContextOverride orig) this args w
       = call orig VUndefined args' w'
       ∧ RUST_OFFSCREEN_CANVAS w' = RUST_OFFSCREEN_CANVAS w
       ∧ onmessage w' = onmessage w
       ∧ calls w' = calls w)
  ∧ ∀ c,
      (call (GetContextOverride (Bound NativeGetContext c)) this args w).2
      = (native_getContext c (override_prepare args w).1
           (heap (override_prepare args w).2)).2.
Proof.
  split_and!.
  - intros Hty. by rewrite call_override, override_prepare_other.
  - exists (override_prepare args w).1, (override_prepare args w).2.
    split; [apply call_override|].
    unfold override_prepare.
    destruct (strict_eq_str _ _); [|done].
    destruct (_ || _ || _); [|done].
    by destruct (alloc_empty _).
  - intros c. rewrite call_override. simpl.
    by destruct (native_getContext _ _ _).
Qed.

(** C10: when the caller supplies an object as attributes of a ["webgl2"]
    request, the original operation receives the caller's arguments
    themselves, and the heap it runs on differs from the caller's only in
    that object's [desynchronized] field, now [true]; nothing is allocated.
    The caller sees the change on its object after the call, as long as
    the original operation does not itself write to that object. *)
Theorem webgl2_mutates_caller_attributes orig this args w l o :
  array_get args 0 = VStr "webgl2" →
  array_get args 1 = VRef l →
  heap w !! l = Some o →
  ∃ w',
    call (GetContextOverride orig) this args w = call orig VUndefined args w'
    ∧ heap w' !! l
      = Some (MkObj (cls o) (<["desynchronized" := VBool true]> (props o)))
    ∧ (∀ k, k ≠ "desynchronized" →
            get (heap w') (VRef l) k = get (heap w) (VRef l) k)
    ∧ (∀ l', l' ≠ l → heap w' !! l' = heap w !! l')
    ∧ dom (heap w') = dom (heap w)
    ∧ ((∀ t a w0, heap (call orig t a w0).1 !! l = heap w0 !! l) →
       heap (call (GetContextOverride orig) this args w).1 !! l
       = Some (MkObj (cls o)
                 (<["desynchronized" := VBool true]> (props o)))).
Proof.
  intros Hty Hl Ho. rewrite call_override.
  rewrite (override_prepare_supplied args w l) by done. simpl.
  eexists. split; [reflexivity|]. simpl.
  assert (put (heap w) (VRef l) "desynchronized" (VBool true) !! l
          = Some (MkObj (cls o)
                    (<["desynchronized" := VBool true]> (props o)))) as Hput.
  { by rewrite lookup_put_eq, Ho. }
  split_and!.
  - done.
  - intros k Hk. by rewrite get_put_ne.
  - intros l' Hl'. by apply lookup_put_ne.
  - apply dom_put.
  - intros Hframe. by rewrite Hframe.
Qed.

End Override.

(** ** The override on sample requests *)

Lemma webgl2_request_forces_desynchronized_witness :
  ∃ attrs w',
    call sample_native (GetContextOverride (Bound NativeGetContext (VRef 2)))
      (VRef 2) [VStr "webgl2"; VRef 4] (load OverrideVariant sample_heap)
    = call sample_native (Bound NativeGetContext (VRef 2)) VUndefined
        (array_set [VStr "webgl2"; VRef 4] 1 (VRef attrs)) w'
    ∧ attrs = 4%positive
    ∧ get (heap w') (VRef attrs) "desynchronized" = VBool true
    ∧ get (heap w') (VRef attrs) "antialias" = VBool false.
Proof.
  destruct (webgl2_request_forces_desynchronized sample_native
              (Bound NativeGetContext (VRef 2)) (VRef 2)
              [VStr "webgl2"; VRef 4] (load OverrideVariant sample_heap))
    as (attrs & w' & Hcall & Hattrs & _ & _ & _ & Hd & Hrest).
  - reflexivity.
  - intros l [= <-]. eexists. reflexivity.
  - exists attrs, w'. simpl in Hattrs. destruct Hattrs as [-> _].
    split_and!; [exact Hcall|reflexivity|exact Hd|].
    rewrite Hrest by discriminate. reflexivity.
Defined.

Lemma other_context_types_pass_through_witness :
  array_get [VStr "2d"; VRef 4] 0 ≠ VStr "webgl2"
  ∧ call sample_native (GetContextOverride (Bound NativeGetContext (VRef 2)))
      (VRef 2) [VStr "2d"; VRef 4] (load OverrideVariant sample_heap)
    = call sample_native (Bound NativeGetContext (VRef 2)) VUndefined
        [VStr "2d"; VRef 4]
        (emit (report_other_context (VStr "2d"))
           (emit (report_get_context [VStr "2d"; VRef 4])
              (load OverrideVariant sample_heap))).
Proof.
  assert (array_get [VStr "2d"; VRef 4] 0 ≠ VStr "webgl2") as Hne
    by discriminate.
  split; [exact Hne|].
  exact (proj1 (other_context_types_pass_through sample_native
                  (Bound NativeGetContext (VRef 2)) (VRef 2)
                  [VStr "2d"; VRef 4] (load OverrideVariant sample_heap))
               Hne).
Defined.

Lemma webgl2_mutates_caller_attributes_witness :
  heap
    (call sample_native (GetContextOverride (Bound NativeGetContext (VRef 2)))
       (VRef 2) [VStr "webgl2"; VRef 4] (load OverrideVariant sample_heap)).1
  !! 4%positive
  = Some (MkObj Object
            (<["desynchronized" := VBool true]>
               (<["antialias" := VBool false]>
                  (<["desynchronized" := VBool false]> ∅)))).
Proof.
  destruct (webgl2_mutates_caller_attributes sample_native
              (Bound NativeGetContext (VRef 2)) (VRef 2)
              [VStr "webgl2"; VRef 4] (load OverrideVariant sample_heap)
              4%positive
              (MkObj Object
                 (<["antialias" := VBool false]>
                    (<["desynchronized" := VBool false]> ∅))))
    as (w' & _ & _ & _ & _ & _ & Hafter).
  - reflexivity.
  - reflexivity.
  - reflexivity.
  - apply Hafter. intros t a w0. reflexivity.
Defined.

(** A request with no attributes: the original operation is called with a
    new object [{ desynchronized: true }] in second position. *)
Example webgl2_without_attributes :
  let w := load OverrideVariant sample_heap in
  (override_prepare [VStr "webgl2"] w).1 = [VStr "webgl2"; VRef 7]
  ∧ heap (override_prepare [VStr "webgl2"] w).2 !! 7%positive
    = Some (MkObj Object {["desynchronized" := VBool true]})
  ∧ sample_heap !! 7%positive = None.
Proof. split_and!; reflexivity. Qed.

(** A request with [{ antialias: false, desynchronized: false }]: the same
    object is passed on, now [{ antialias: false, desynchronized: true }]. *)
Example webgl2_with_attributes :
  let w := load OverrideVariant sample_heap in
  (override_prepare [VStr "webgl2"; VRef 4] w).1 = [VStr "webgl2"; VRef 4]
  ∧ get (heap (override_prepare [VStr "webgl2"; VRef 4] w).2) (VRef 4)
      "antialias" = VBool false
  ∧ get (heap (override_prepare [VStr "webgl2"; VRef 4] w).2) (VRef 4)
      "desynchronized" = VBool true.
Proof. split_and!; reflexivity. Qed.

(** A request for a ["2d"] context: arguments and heap are untouched. *)
Example other_context_untouched :
  let w := load OverrideVariant sample_heap in
  (override_prepare [VStr "2d"; VRef 4] w).1 = [VStr "2d"; VRef 4]
  ∧ heap (override_prepare [VStr "2d"; VRef 4] w).2 = sample_heap.
Proof. split_and!; reflexivity. Qed.

(** The page sends a malformed message, then two well-formed ones: the
    canvas of the first well-formed one is bound, the bootstrap runs once,
    and the last message, arriving with no handler registered, leaves no
    trace. *)
Example sample_session :
  let w :=
    deliver_all (load OverrideVariant sample_heap)
      [MkEvent (VRef 3); MkEvent (VRef 1); MkEvent (VRef 5)] in
  RUST_OFFSCREEN_CANVAS w = VRef 2
  ∧ onmessage w = None
  ∧ calls w = bootstrap_calls
  ∧ console w
    = [ report_loaded; report_invalid_payload (VRef 3);
        report_received (VRef 2); report_listener_removed ]
  ∧ get (heap w) (VRef 2) "getContext"
    = VFun (GetContextOverride (Bound NativeGetContext (VRef 2)))
  ∧ get (heap w) (VRef 6) "getContext" = VFun NativeGetContext.
Proof. split_and!; reflexivity. Qed.

(** * Further properties of the two scripts *)

#[local] Arguments get : simpl never.
#[local] Arguments put : simpl never.

(** ** More on the heap *)

Lemma get_put_other h l l' k k' x :
  l ≠ l' → get (put h (VRef l) k x) (VRef l') k' = get h (VRef l') k'.
Proof. intros Hl. unfold get. by rewrite lookup_put_ne. Qed.

Lemma lookup_put_Some h v k x l o' :
  put h v k x !! l = Some o' → ∃ o, h !! l = Some o ∧ cls o = cls o'.
Proof.
  destruct v as [| | | | |l0|]; try (intros H; by exists o').
  destruct (decide (l0 = l)) as [->|Hne].
  - rewrite lookup_put_eq. destruct (h !! l) as [o|]; [|done].
    intros [= <-]. by exists o.
  - rewrite lookup_put_ne by done. intros H. by exists o'.
Qed.

Lemma put_put_same h v k x : put (put h v k x) v k x = put h v k x.
Proof.
  destruct v as [| | | | |l|]; try done. apply map_eq. intros i.
  destruct (decide (l = i)) as [->|Hne].
  - rewrite !lookup_put_eq. destruct (h !! i) as [o|]; [|done]. simpl.
    by rewrite insert_insert_eq.
  - by rewrite !lookup_put_ne.
Qed.

Lemma platform_heap_put h v k x :
  k ≠ "getContext" → platform_heap h → platform_heap (put h v k x).
Proof.
  intros Hk Hh c o' Ho' Hc.
  destruct (lookup_put_Some _ _ _ _ _ _ Ho') as (o & Ho & Hcls).
  rewrite get_put_ne by done. eapply Hh; [done|congruence].
Qed.

Lemma platform_heap_alloc h :
  platform_heap h → platform_heap (alloc_empty h).2.
Proof.
  intros Hh c o Ho Hc. unfold alloc_empty in *. simpl in *.
  destruct (decide (fresh (dom h) = c)) as [<-|Hne].
  - rewrite lookup_insert_eq in Ho. by simplify_eq.
  - rewrite lookup_insert_ne in Ho by done. unfold get.
    rewrite lookup_insert_ne by done. by apply (Hh c o).
Qed.

Lemma platform_heap_install h c f :
  platform_heap h →
  platform_heap (put h (VRef c) "getContext" (VFun f)).
Proof.
  intros Hh c' o' Ho' Hc.
  destruct (lookup_put_Some _ _ _ _ _ _ Ho') as (o & Ho & Hcls).
  destruct (decide (c = c')) as [<-|Hne].
  - exists f. by eapply get_put_eq.
  - rewrite get_put_other by done. eapply Hh; [done|congruence].
Qed.

(** ** Completion of the handler *)


(** ** What the handshake leaves alone *)

(** X2: the handshake of [worker.js] allocates nothing and writes one
    property: every object other than the bound canvas is as before, every
    property of the canvas other than [getContext] reads as before, the
    canvas is still an [OffscreenCanvas] instance, and the message still
    refers to it. The handshake of [part_000] leaves the whole heap as it
    is. *)
Theorem handshake_frame w ev c :
  RUST_OFFSCREEN_CANVAS w = VNull →
  initialization_message (heap w) (data ev) c →
  dom (heap (onmessage_worker_js w ev).1) = dom (heap w)
  ∧ (∀ l, l ≠ c → heap (onmessage_worker_js w ev).1 !! l = heap w !! l)
  ∧ (∀ k, k ≠ "getContext" →
          get (heap (onmessage_worker_js w ev).1) (VRef c) k
          = get (heap w) (VRef c) k)
  ∧ instanceof_OffscreenCanvas (heap (onmessage_worker_js w ev).1) (VRef c)
    = true
  ∧ get (heap (onmessage_worker_js w ev).1) (data ev) "canvas" = VRef c
  ∧ heap (onmessage_part_000 w ev).1 = heap w.
Proof.
  intros Hn Hm. pose proof (initialization_message_shape _ _ _ Hm) as Hs.
  destruct Hm as ([l Hl] & _ & Hc & (o & Ho & Hcls) & f & Hf).
  rewrite (override_when_valid w ev c f) by done.
  rewrite baseline_when_valid by done. simpl.
  split_and!.
  - apply dom_put.
  - intros l' Hl'. by apply lookup_put_ne.
  - intros k Hk. by rewrite get_put_ne.
  - rewrite lookup_put_eq, Ho. simpl. by rewrite Hcls.
  - rewrite Hl in *. by rewrite get_put_ne.
  - done.
Qed.

Lemma handshake_frame_witness :
  let w := load OverrideVariant sample_heap in
  heap (onmessage_worker_js w (MkEvent (VRef 1))).1 !! 4%positive
  = sample_heap !! 4%positive
  ∧ instanceof_OffscreenCanvas
      (heap (onmessage_worker_js w (MkEvent (VRef 1))).1) (VRef 2) = true.
Proof.
  destruct (handshake_frame (load OverrideVariant sample_heap)
              (MkEvent (VRef 1)) 2%positive)
    as (_ & Hother & _ & Hinst & _).
  - reflexivity.
  - exact sample_message.
  - split; [|exact Hinst]. apply Hother. discriminate.
Defined.

(** X8: neither handler, nor the override before it hands over to the
    original operation, ever leaves a canvas whose [getContext] is not a
    function: a heap of platform canvases stays one. *)
Theorem platform_heap_preserved v w ev args :
  platform_heap (heap w) →
  platform_heap (heap (onmessage_handler v w ev).1)
  ∧ platform_heap (heap (override_prepare args w).2).
Proof.
  intros Hh. split.
  - assert (RUST_OFFSCREEN_CANVAS w = VNull
            ∨ RUST_OFFSCREEN_CANVAS w ≠ VNull) as [Hn|Hb]
      by (destruct (RUST_OFFSCREEN_CANVAS w); auto).
    + destruct (shape_check (heap w) (data ev)) eqn:Hs.
      * destruct (platform_heap_message _ _ Hh Hs)
          as (c & _ & _ & Hc & _ & f & Hf).
        destruct v; simpl.
        -- rewrite (override_when_valid w ev c f) by done. simpl.
           by apply platform_heap_install.
        -- by rewrite baseline_when_valid.
      * by rewrite handler_when_malformed.
    + by rewrite handler_when_bound.
  - unfold override_prepare.
    destruct (strict_eq_str (array_get args 0) "webgl2"); [|done].
    destruct (_ || _ || _).
    + simpl. apply platform_heap_put; [done|].
      apply (platform_heap_alloc _ Hh).
    + simpl. by apply platform_heap_put.
Qed.

Lemma platform_heap_preserved_witness :
  platform_heap
    (heap (override_prepare [VStr "webgl2"; VRef 6]
             (load OverrideVariant sample_heap)).2).
Proof.
  apply (platform_heap_preserved OverrideVariant
           (load OverrideVariant sample_heap) (MkEvent (VRef 1))
           [VStr "webgl2"; VRef 6]).
  apply platform_heapb_sound. reflexivity.
Defined.

(** ** The channel, message by message *)

Lemma deliver_all_console evs : ∀ v w,
  RUST_OFFSCREEN_CANVAS w = VNull → onmessage w = Some v →
  platform_heap (heap w) →
  console (deliver_all w evs) = console w ++ channel_reports (heap w) evs.
Proof.
  induction evs as [|ev evs IH]; intros v w Hn Hr Hh.
  - simpl. by rewrite app_nil_r.
  - unfold deliver_all in *. cbn [foldl channel_reports].
    destruct (shape_check (heap w) (data ev)) eqn:Hs.
    + destruct (platform_heap_message _ _ Hh Hs) as [c Hm].
      destruct (dispatch_when_valid v w ev c Hn Hr Hm) as [h ->].
      rewrite (deliver_all_deregistered _ evs) by done.
      destruct Hm as (_ & _ & -> & _). done.
    + rewrite (dispatch_when_malformed v) by done.
      rewrite (IH v) by done. simpl. by rewrite <- app_assoc.
Qed.

(** X3: over any sequence of delivered messages the console holds the load
    report, then one error report per message, in order, up to the first
    message that passes the shape check, then the two reports of the success
    path; messages after that one leave no report. *)
Theorem console_of_channel v h evs :
  platform_heap h →
  console (deliver_all (load v h) evs) = report_loaded :: channel_reports h evs.
Proof.
  intros Hh. by rewrite (deliver_all_console evs v (load v h)).
Qed.

Lemma console_of_channel_witness :
  console
    (deliver_all (load BaselineVariant sample_heap)
       [MkEvent VNull; MkEvent (VRef 3); MkEvent (VRef 5); MkEvent (VRef 1)])
  = [ report_loaded; report_invalid_payload VNull;
      report_invalid_payload (VRef 3); report_received (VRef 6);
      report_listener_removed ].
Proof.
  rewrite (console_of_channel BaselineVariant sample_heap).
  - reflexivity.
  - apply platform_heapb_sound. reflexivity.
Defined.

Lemma deliver_all_lockstep evs : ∀ v w,
  RUST_OFFSCREEN_CANVAS w = VNull → onmessage w = Some v →
  platform_heap (heap w) →
  (RUST_OFFSCREEN_CANVAS (deliver_all w evs) = VNull
   ∧ onmessage (deliver_all w evs) = Some v
   ∧ heap (deliver_all w evs) = heap w
   ∧ calls (deliver_all w evs) = calls w)
  ∨ (∃ c, RUST_OFFSCREEN_CANVAS (deliver_all w evs) = VRef c
          ∧ platform_canvas (heap w) c
          ∧ onmessage (deliver_all w evs) = None
          ∧ calls (deliver_all w evs) = calls w ++ bootstrap_calls).
Proof.
  induction evs as [|ev evs IH]; intros v w Hn Hr Hh.
  - by left.
  - unfold deliver_all in *. cbn [foldl].
    destruct (shape_check (heap w) (data ev)) eqn:Hs.
    + destruct (platform_heap_message _ _ Hh Hs) as [c Hm].
      destruct (dispatch_when_valid v w ev c Hn Hr Hm) as [h ->].
      rewrite (deliver_all_deregistered _ evs) by done.
      right. exists c. by destruct Hm as (_ & _ & _ & Hp).
    + rewrite (dispatch_when_malformed v) by done.
      by apply (IH v (emit (report_invalid_payload (data ev)) w)).
Qed.

(** X4: on the channel the surface state and the handler registration move
    together: after any sequence of messages either no surface is bound, the
    handler is still the script's, the heap is untouched and no call has been
    made to the external module, or a platform canvas is bound, no handler is
    registered and the bootstrap calls have been made. *)
Theorem surface_and_registration_in_step v h evs :
  platform_heap h →
  (phase_of (deliver_all (load v h) evs) = AwaitingSurface
   ∧ onmessage (deliver_all (load v h) evs) = Some v
   ∧ heap (deliver_all (load v h) evs) = h
   ∧ calls (deliver_all (load v h) evs) = [])
  ∨ (∃ c, RUST_OFFSCREEN_CANVAS (deliver_all (load v h) evs) = VRef c
          ∧ platform_canvas h c
          ∧ onmessage (deliver_all (load v h) evs) = None
          ∧ calls (deliver_all (load v h) evs) = bootstrap_calls).
Proof.
  intros Hh.
  destruct (deliver_all_lockstep evs v (load v h)) as [(H1 & H2)|H]; try done.
  - left. split; [by apply phase_awaiting|done].
  - by right.
Qed.

Lemma surface_and_registration_in_step_witness :
  let w := deliver_all (load OverrideVariant sample_heap)
             [MkEvent (VRef 3); MkEvent (VRef 4)] in
  (phase_of w = AwaitingSurface ∧ onmessage w = Some OverrideVariant
   ∧ heap w = sample_heap ∧ calls w = [])
  ∨ (∃ c, RUST_OFFSCREEN_CANVAS w = VRef c ∧ platform_canvas sample_heap c
          ∧ onmessage w = None ∧ calls w = bootstrap_calls).
Proof.
  apply (surface_and_registration_in_step OverrideVariant sample_heap
           [MkEvent (VRef 3); MkEvent (VRef 4)]).
  apply platform_heapb_sound. reflexivity.
Defined.

(** X9: a message that is not an object (a primitive, [undefined], [null], a
    function) or that is an object lacking an own [type] or an own [canvas]
    property is rejected: delivered in [AwaitingSurface] it only adds the
    error report. A canvas sent bare, not wrapped in a message object, is
    such a message. *)
Theorem incomplete_message_rejected v w ev :
  RUST_OFFSCREEN_CANVAS w = VNull →
  onmessage w = Some v →
  ((∀ l, data ev ≠ VRef l)
   ∨ ∃ l o, data ev = VRef l ∧ heap w !! l = Some o
            ∧ (props o !! "type" = None ∨ props o !! "canvas" = None)) →
  dispatch w ev = emit (report_invalid_payload (data ev)) w.
Proof.
  intros Hn Hr Hbad. apply (dispatch_when_malformed v); [done..|].
  apply shape_check_false. intros ([l Hl] & Hty & c & o' & Hc & _).
  destruct Hbad as [Hprim|(l' & o & Hl' & Ho & [Hmiss|Hmiss])].
  - by apply (Hprim l).
  - rewrite Hl' in Hty. unfold get in Hty. rewrite Ho, Hmiss in Hty.
    by destruct (cls o).
  - rewrite Hl' in Hc. unfold get in Hc. rewrite Ho, Hmiss in Hc.
    by destruct (cls o).
Qed.

Lemma incomplete_message_rejected_witness :
  let w := load OverrideVariant sample_heap in
  dispatch w (MkEvent VNull) = emit (report_invalid_payload VNull) w
  ∧ dispatch w (MkEvent (VRef 2)) = emit (report_invalid_payload (VRef 2)) w.
Proof.
  split.
  - apply (incomplete_message_rejected OverrideVariant
             (load OverrideVariant sample_heap) (MkEvent VNull));
      [reflexivity|reflexivity|].
    left. intros l. discriminate.
  - apply (incomplete_message_rejected OverrideVariant
             (load OverrideVariant sample_heap) (MkEvent (VRef 2)));
      [reflexivity|reflexivity|].
    right. exists 2%positive, (MkObj OffscreenCanvas ∅).
    split; [reflexivity|]. split; [reflexivity|]. left. reflexivity.
Defined.

(** ** More on the override *)

Lemma length_array_set_1 (a : list value) v :
  length (array_set a 1 v) = max 2 (length a).
Proof. by destruct a as [|x [|y a]]. Qed.

(** X5: when a ["webgl2"] request comes without an attributes object, the
    override allocates exactly one new object, at a location not in use, and
    leaves every existing object as it is; the arguments passed on have the
    new reference in second position and are two long, or as long as the
    caller's if those were longer. *)
Theorem webgl2_fresh_attributes_frame args w :
  array_get args 0 = VStr "webgl2" →
  supplied_attributes args = None →
  ∃ l,
    (override_prepare args w).1 = array_set args 1 (VRef l)
    ∧ length (override_prepare args w).1 = max 2 (length args)
    ∧ (l ∉ dom (heap w))
    ∧ dom (heap (override_prepare args w).2) = {[l]} ∪ dom (heap w)
    ∧ ∀ l', l' ≠ l → heap (override_prepare args w).2 !! l' = heap w !! l'.
Proof.
  intros Hty Hs. exists (fresh (dom (heap w))).
  rewrite (override_prepare_missing args w) by done. simpl.
  split_and!.
  - done.
  - apply length_array_set_1.
  - apply is_fresh.
  - by rewrite dom_put, dom_insert_L.
  - intros l' Hl'. rewrite lookup_put_ne by done.
    by rewrite lookup_insert_ne.
Qed.

Lemma webgl2_fresh_attributes_frame_witness :
  ∃ l,
    (override_prepare [VStr "webgl2"; VNull; VNum 3]
       (load OverrideVariant sample_heap)).1
    = [VStr "webgl2"; VRef l; VNum 3]
    ∧ (l ∉ dom sample_heap).
Proof.
  destruct (webgl2_fresh_attributes_frame [VStr "webgl2"; VNull; VNum 3]
              (load OverrideVariant sample_heap))
    as (l & Hargs & _ & Hfresh & _).
  - reflexivity.
  - reflexivity.
  - exists l. split; [exact Hargs|exact Hfresh].
Defined.

(** X6: forcing [desynchronized] is idempotent: when the arguments a
    ["webgl2"] request was passed on with are requested again, they are
    passed on unchanged and the heap stays as the first request left it. *)
Theorem webgl2_request_idempotent args w l :
  array_get args 0 = VStr "webgl2" →
  array_get args 1 = VRef l →
  (override_prepare (override_prepare args w).1 (override_prepare args w).2).1
  = args
  ∧ heap
      (override_prepare (override_prepare args w).1
         (override_prepare args w).2).2
    = heap (override_prepare args w).2.
Proof.
  intros Hty Hl.
  rewrite (override_prepare_supplied args w l) by done. simpl.
  rewrite (override_prepare_supplied args _ l) by done. simpl.
  split; [done|]. apply put_put_same.
Qed.

Lemma webgl2_request_idempotent_witness :
  let w := load OverrideVariant sample_heap in
  heap
    (override_prepare
       (override_prepare [VStr "webgl2"; VRef 4] w).1
       (override_prepare [VStr "webgl2"; VRef 4] w).2).2
  = heap (override_prepare [VStr "webgl2"; VRef 4] w).2.
Proof.
  apply (webgl2_request_idempotent [VStr "webgl2"; VRef 4]
           (load OverrideVariant sample_heap) 4%positive); reflexivity.
Defined.

(** X7: every run of the override adds exactly two reports: first, at log
    level, the arguments as the caller passed them, even when they are
    replaced afterwards; then, at debug level, either the attributes object
    that is passed on (for ["webgl2"]) or the requested context type. *)
Theorem override_reports args w :
  ∃ r,
    console (override_prepare args w).2
    = console w ++ [report_get_context args; r]
    ∧ lvl r = Debug
    ∧ (array_get args 0 = VStr "webgl2" →
       ∃ l, array_get (override_prepare args w).1 1 = VRef l
            ∧ r = report_modified (VRef l))
    ∧ (array_get args 0 ≠ VStr "webgl2" →
       r = report_other_context (array_get args 0)).
Proof.
  destruct (strict_eq_str (array_get args 0) "webgl2") eqn:E.
  - apply strict_eq_str_true in E.
    destruct (supplied_attributes args) as [l|] eqn:Hs.
    + apply supplied_attributes_Some in Hs.
      rewrite (override_prepare_supplied args w l) by done. simpl.
      eexists. rewrite <- app_assoc. split_and!; [done..| |done].
      intros _. by exists l.
    + rewrite (override_prepare_missing args w) by done. simpl.
      eexists. rewrite <- app_assoc. split_and!; [done..| |done].
      intros _. eexists. split; [apply array_get_set_eq|done].
  - assert (array_get args 0 ≠ VStr "webgl2") as Hne.
    { intros H. apply strict_eq_str_true in H. congruence. }
    rewrite (override_prepare_other args w) by done. simpl.
    eexists. rewrite <- app_assoc. by split_and!.
Qed.

(** X10: once a script has bound a platform canvas, calling
    [canvas.getContext(...args)] ends in the function that was the canvas'
    [getContext] before the handshake, with the canvas as receiver: after
    [worker.js] with the arguments and heap the override prepared, after
    [part_000] with the caller's arguments as they are. *)
Theorem getContext_after_handshake
    (native_getContext :
       value -> list value -> gmap loc obj -> gmap loc obj * completion)
    w ev c f args :
  RUST_OFFSCREEN_CANVAS w = VNull →
  initialization_message (heap w) (data ev) c →
  get (heap w) (VRef c) "getContext" = VFun f →
  call_method native_getContext (VRef c) "getContext" args
    (onmessage_worker_js w ev).1
  = call native_getContext f (VRef c)
      (override_prepare args (onmessage_worker_js w ev).1).1
      (override_prepare args (onmessage_worker_js w ev).1).2
  ∧ call_method native_getContext (VRef c) "getContext" args
      (onmessage_part_000 w ev).1
    = call native_getContext f (VRef c) args (onmessage_part_000 w ev).1.
Proof.
  intros Hn Hm Hf. split.
  - by apply installed_getContext_calls_original.
  - by apply baseline_getContext_calls_original.
Qed.

Lemma getContext_after_handshake_witness :
  let w := load OverrideVariant sample_heap in
  call_method sample_native (VRef 2) "getContext" [VStr "webgl2"]
    (onmessage_worker_js w (MkEvent (VRef 1))).1
  = call sample_native NativeGetContext (VRef 2)
      (override_prepare [VStr "webgl2"]
         (onmessage_worker_js w (MkEvent (VRef 1))).1).1
      (override_prepare [VStr "webgl2"]
         (onmessage_worker_js w (MkEvent (VRef 1))).1).2.
Proof.
  apply (getContext_after_handshake sample_native
           (load OverrideVariant sample_heap) (MkEvent (VRef 1)) 2%positive
           NativeGetContext [VStr "webgl2"]).
  - reflexivity.
  - exact sample_message.
  - reflexivity.
Defined.
